(** * ext-java: [Optional<T>] and [Objects.requireNonNull]

    A shallow embedding of the two [Optional] classes of the repository
    (the richer one and the minimal one in [src/util/Optional.ts]) and of
    [Objects.requireNonNull], followed by the properties of the
    specification that were checked against them.

    - JavaScript values are an inductive type [jsval]; numbers are IEEE
      values ([spec_float]), so that [0], [-0] and [NaN] exist and are the
      falsy numbers.
    - An [Optional] instance is an object with an identity.  Its only field
      ([private readonly value]) is written once by the constructor, so an
      instance is modelled by its identity together with the content of that
      field; [new] draws the identity from an allocation counter kept in the
      store.
    - Methods that allocate, throw or invoke a callback live in a small
      monad [M]: store passing, an outcome that is a result or a thrown
      exception, and the list of callback invocations performed. *)

From Stdlib Require Import ZArith NArith List String Bool Lia.
From Stdlib Require Import Floats.SpecFloat.
Import ListNotations.

Set Implicit Arguments.

(** ** Values *)

Inductive jsval : Type :=
| VUndefined
| VNull
| VBoolean (b : bool)
| VNumber (x : spec_float)
| VBigInt (z : Z)
| VString (s : string)
| VFunction (f : N)
| VObject (a : N)
| VOptional (o : Optional)
with Optional : Type :=
| mkOptional (ident : N) (value : jsval).

(** Identity of an instance (what [===] compares). *)
Definition ident (o : Optional) : N :=
  match o with mkOptional i _ => i end.

(** The field [this.value]. *)
Definition value (o : Optional) : jsval :=
  match o with mkOptional _ v => v end.

(** ToBoolean, as used by [if (value)] and by [c ? a : b]. *)
Definition truthy (v : jsval) : bool :=
  match v with
  | VUndefined | VNull => false
  | VBoolean b => b
  | VNumber (S754_zero _) | VNumber S754_nan => false
  | VNumber _ => true
  | VBigInt z => negb (Z.eqb z 0)
  | VString EmptyString => false
  | VString _ => true
  | VFunction _ | VObject _ | VOptional _ => true
  end.

(** The loose comparison [v == null]: true for [null] and [undefined] only. *)
Definition eq_null (v : jsval) : bool :=
  match v with
  | VUndefined | VNull => true
  | _ => false
  end.

(** ** Exceptions, outcomes, store *)

Inductive exn : Type :=
| NullPointerException
| NoSuchElementException (message : string)
| TypeError
| Thrown (v : jsval).

Inductive outcome (A : Type) : Type :=
| Return (a : A)
| Throw (e : exn).

Arguments Return {A} a.
Arguments Throw {A} e.

(** The store: the allocation counter for [Optional] instances, and
    whatever else the callbacks of the client may read and write. *)
Record store (World : Type) : Type := mkStore {
  next_id : N;
  world : World
}.

(** One callback invocation performed by the code of [Optional]. *)
Inductive event : Type :=
| Called (f : N) (args : list jsval).

(** The functions of the client, by function identity. *)
Definition callbacks (World : Type) : Type :=
  N -> list jsval -> store World -> outcome jsval * store World.

Definition M (World A : Type) : Type :=
  store World -> outcome A * store World * list event.

Section Monad.
Context {World : Type}.

Definition ret {A} (a : A) : M World A :=
  fun s => (Return a, s, []).

Definition throw {A} (e : exn) : M World A :=
  fun s => (Throw e, s, []).

Definition bind {A B} (m : M World A) (k : A -> M World B) : M World B :=
  fun s =>
    match m s with
    | (Return a, s1, t1) =>
        match k a s1 with
        | (r, s2, t2) => (r, s2, t1 ++ t2)
        end
    | (Throw e, s1, t1) => (Throw e, s1, t1)
    end.

(** [new]: draw a fresh identity. *)
Definition alloc : M World N :=
  fun s => (Return (next_id s), mkStore (N.succ (next_id s)) (world s), []).

(** [f(args)]: calling something that is not a function is a [TypeError]. *)
Definition call (fenv : callbacks World) (f : jsval) (args : list jsval)
  : M World jsval :=
  fun s =>
    match f with
    | VFunction id =>
        match fenv id args s with
        | (r, s1) => (r, s1, [Called id args])
        end
    | _ => (Throw TypeError, s, [])
    end.

End Monad.

Notation "x <- m ;; k" := (bind m (fun x => k))
  (at level 61, m at next level, right associativity).
Notation "m ;; k" := (bind m (fun _ => k))
  (at level 61, right associativity).

(** The store in which a class finds itself when it is loaded, and the
    store after the allocation of one instance. *)
Definition fresh_store {World} (w : World) : store World := mkStore 0 w.

Definition bump {World} (s : store World) : store World :=
  mkStore (N.succ (next_id s)) (world s).

(** ** [Objects] *)

Module Objects.
Section Methods.
Context {World : Type}.

(** [if (value == null) throw new NullPointerException(); return value] *)
Definition requireNonNull (v : jsval) : M World jsval :=
  if eq_null v then throw NullPointerException else ret v.

End Methods.
End Objects.

(** ** The richer [Optional] *)

Module Rich.
Section Methods.
Context {World : Type}.
Variable fenv : callbacks World.

(** [if (value) this.value = value; else this.value = null] *)
Definition constructor (v : jsval) : M World Optional :=
  id <- alloc ;;
  ret (mkOptional id (if truthy v then v else VNull)).

(** [static EMPTY = new Optional(null)]: the first instance of the class. *)
Definition EMPTY : Optional := mkOptional 0 VNull.

Definition empty : M World Optional := ret EMPTY.

(** [return new Optional(Objects.requireNonNull(value))] *)
Definition of_ (v : jsval) : M World Optional :=
  x <- Objects.requireNonNull v ;;
  constructor x.

(** [return value == null ? this.empty() : this.of(value)] *)
Definition ofNullable (v : jsval) : M World Optional :=
  if eq_null v then empty else of_ v.

Definition get (this : Optional) : M World jsval :=
  if eq_null (value this)
  then throw (NoSuchElementException "No value present.")
  else ret (value this).

(** [return this.value != null] *)
Definition isPresent (this : Optional) : bool :=
  negb (eq_null (value this)).

(** [return this.value == null] *)
Definition isEmpty (this : Optional) : bool :=
  eq_null (value this).

Definition ifPresent (this : Optional) (action : jsval) : M World unit :=
  if negb (eq_null (value this))
  then call fenv action [value this] ;; ret tt
  else ret tt.

Definition ifPresentOrElse (this : Optional) (action actionOnEmpty : jsval)
  : M World unit :=
  if negb (eq_null (value this))
  then call fenv action [value this] ;; ret tt
  else call fenv actionOnEmpty [] ;; ret tt.

Definition filter (this : Optional) (predicate : jsval) : M World Optional :=
  Objects.requireNonNull predicate ;;
  if negb (isPresent this)
  then ret this
  else
    r <- call fenv predicate [value this] ;;
    if truthy r then ret this else empty.

Definition map (this : Optional) (callback : jsval) : M World Optional :=
  if eq_null (value this)
  then empty
  else
    r <- call fenv callback [value this] ;;
    ofNullable r.

Definition flatMap (this : Optional) (mapper : jsval) : M World jsval :=
  Objects.requireNonNull mapper ;;
  if negb (isPresent this)
  then
    e <- empty ;;
    ret (VOptional e)
  else
    r <- call fenv mapper [value this] ;;
    Objects.requireNonNull r.

(** [if (!this.isPresent()) return this
     else return Objects.requireNonNull(supplier())] *)
Definition or (this : Optional) (supplier : jsval) : M World jsval :=
  Objects.requireNonNull supplier ;;
  if negb (isPresent this)
  then ret (VOptional this)
  else
    r <- call fenv supplier [] ;;
    Objects.requireNonNull r.

(** [return this.value != null ? this.value : other] *)
Definition orElse (this : Optional) (other : jsval) : jsval :=
  if negb (eq_null (value this)) then value this else other.

Definition orElseGet (this : Optional) (supplier : jsval) : M World jsval :=
  if negb (eq_null (value this))
  then ret (value this)
  else
    r <- call fenv supplier [] ;;
    Objects.requireNonNull r.

Definition orElseThrow (this : Optional) : M World jsval :=
  if eq_null (value this)
  then throw (NoSuchElementException "No value present")
  else ret (value this).

Definition orElseThrowSpecified (this : Optional) (supplier : jsval)
  : M World jsval :=
  if negb (eq_null (value this))
  then ret (value this)
  else
    e <- call fenv supplier [] ;;
    throw (Thrown e).

End Methods.
End Rich.

(** ** The minimal [Optional] of [src/util/Optional.ts] *)

Module Minimal.
Section Methods.
Context {World : Type}.
Variable fenv : callbacks World.

(** [constructor(value?: T)]: an omitted argument is [undefined]. *)
Definition constructor (v : jsval) : M World Optional :=
  id <- alloc ;;
  ret (mkOptional id (if truthy v then v else VNull)).

(** [static EMPTY = new Optional()] *)
Definition EMPTY : Optional := mkOptional 0 VNull.

Definition empty : M World Optional := ret EMPTY.

(** [return new Optional(value)] *)
Definition of_ (v : jsval) : M World Optional :=
  constructor v.

Definition ofNullable (v : jsval) : M World Optional :=
  if eq_null v then empty else of_ v.

Definition get (this : Optional) : M World jsval :=
  if eq_null (value this)
  then throw (NoSuchElementException "No value present.")
  else ret (value this).

Definition isPresent (this : Optional) : bool :=
  negb (eq_null (value this)).

Definition ifPresent (this : Optional) (callback : jsval) : M World unit :=
  if negb (eq_null (value this))
  then call fenv callback [value this] ;; ret tt
  else ret tt.

Definition map (this : Optional) (callback : jsval) : M World Optional :=
  if eq_null (value this)
  then empty
  else
    r <- call fenv callback [value this] ;;
    ofNullable r.

Definition orElse (this : Optional) (other : jsval) : jsval :=
  if negb (eq_null (value this)) then value this else other.

End Methods.
End Minimal.

(** ** A small client, used to run the code on concrete inputs *)

Module Client.

Definition five : jsval := VNumber (S754_finite false 5 0).
Definition ten : jsval := VNumber (S754_finite false 5 1).
Definition zero : jsval := VNumber (S754_zero false).
Definition NaN : jsval := VNumber S754_nan.

(** The store right after the class has been loaded: [EMPTY] is the only
    instance allocated so far. *)
Definition loaded : store unit := mkStore 1 tt.

(** Function identities of the client. *)
Definition f_null : N := 0.       (* () => null *)
Definition f_true : N := 1.       (* x => true *)
Definition f_false : N := 2.      (* x => false *)
Definition f_zero : N := 3.       (* x => 0 *)
Definition f_wrap : N := 4.       (* x => Optional.of("other") *)
Definition f_ten : N := 5.        (* x => 10 *)

(** The body of a function that returns the [Optional] computed by [m]. *)
Definition returning (m : M unit Optional) (s : store unit)
  : outcome jsval * store unit :=
  match m s with
  | (Return o, s1, _) => (Return (VOptional o), s1)
  | (Throw e, s1, _) => (Throw e, s1)
  end.

Definition fenv : callbacks unit :=
  fun f args s =>
    match f with
    | 0%N => (Return VNull, s)
    | 1%N => (Return (VBoolean true), s)
    | 2%N => (Return (VBoolean false), s)
    | 3%N => (Return zero, s)
    | 4%N => returning (Rich.of_ (VString "other")) s
    | 5%N => (Return ten, s)
    | _ => (Throw (Thrown (VString "unexpected")), s)
    end.

(** [Optional.of(5)] evaluated in [loaded], and the store it leaves. *)
Definition some_five : Optional := mkOptional 1 five.
Definition after_one : store unit := mkStore 2 tt.

End Client.

(** ** A second client, whose functions count their own invocations *)

Module Tally.

(** Every function of this client increments the counter kept in the world. *)
Definition tick (s : store nat) : store nat :=
  mkStore (next_id s) (S (world s)).

Definition f_id : N := 0.         (* x => x *)
Definition f_throw : N := 1.      (* x => { throw "boom" } *)
Definition f_fallback : N := 2.   (* () => "fallback" *)
Definition f_null : N := 4.       (* x => null *)

Definition fenv : callbacks nat :=
  fun f args s =>
    match f with
    | 0%N => (Return (hd VUndefined args), tick s)
    | 1%N => (Throw (Thrown (VString "boom")), tick s)
    | 2%N => (Return (VString "fallback"), tick s)
    | 3%N => (Return (VString EmptyString), tick s)
    | _ => (Return VNull, tick s)
    end.

(** [Optional.of("a")] made right after the class was loaded, and the store
    it leaves: two instances allocated, no function invoked yet. *)
Definition some_a : Optional := mkOptional 1 (VString "a").
Definition start : store nat := mkStore 2 0.

End Tally.

(** ** The state the constructor leaves an instance in *)

(** The field holds [null] or a truthy value: what
    [if (value) this.value = value; else this.value = null] establishes. *)
Definition constructed (o : Optional) : Prop :=
  value o = VNull \/ truthy (value o) = true.

(** What is left of a callback's outcome when its result is discarded. *)
Definition discard (r : outcome jsval) : outcome unit :=
  match r with
  | Return _ => Return tt
  | Throw e => Throw e
  end.

(** The number of callback invocations performed in a run. *)
Definition invocations {World A : Type}
  (r : outcome A * store World * list event) : nat :=
  List.length (snd r).

(** * Properties *)

Unset Implicit Arguments.

(** ** Running the monad *)

Section Running.
Context {World : Type}.

Lemma bind_Return :
  forall A B (m : M World A) (k : A -> M World B) s a s1 t1,
    m s = (Return a, s1, t1) ->
    bind m k s =
      match k a s1 with (r, s2, t2) => (r, s2, t1 ++ t2) end.
Proof.
  intros A B m k s a s1 t1 Hm. unfold bind. rewrite Hm. reflexivity.
Qed.

Lemma bind_Throw :
  forall A B (m : M World A) (k : A -> M World B) s e s1 t1,
    m s = (Throw e, s1, t1) ->
    bind m k s = (Throw e, s1, t1).
Proof.
  intros A B m k s e s1 t1 Hm. unfold bind. rewrite Hm. reflexivity.
Qed.

Lemma requireNonNull_null :
  forall v (s : store World),
    eq_null v = true ->
    Objects.requireNonNull v s = (Throw NullPointerException, s, []).
Proof.
  intros v s Hv. unfold Objects.requireNonNull. rewrite Hv. reflexivity.
Qed.

Lemma requireNonNull_non_null :
  forall v (s : store World),
    eq_null v = false ->
    Objects.requireNonNull v s = (Return v, s, []).
Proof.
  intros v s Hv. unfold Objects.requireNonNull. rewrite Hv. reflexivity.
Qed.

Lemma call_function :
  forall (fenv : callbacks World) f args s r s1,
    fenv f args s = (r, s1) ->
    call fenv (VFunction f) args s = (r, s1, [Called f args]).
Proof.
  intros fenv f args s r s1 Hf. unfold call. rewrite Hf. reflexivity.
Qed.

(** The static initialiser of each class allocates [EMPTY] first. *)
Lemma Rich_EMPTY_static_init :
  forall w : World,
    Rich.constructor VNull (fresh_store w) = (Return Rich.EMPTY, mkStore 1 w, []).
Proof. reflexivity. Qed.

Lemma Minimal_EMPTY_static_init :
  forall w : World,
    Minimal.constructor VUndefined (fresh_store w)
    = (Return Minimal.EMPTY, mkStore 1 w, []).
Proof. reflexivity. Qed.

(** What [of] does on every value that is not [null] or [undefined]. *)
Lemma Rich_of_non_null :
  forall v (s : store World),
    eq_null v = false ->
    Rich.of_ v s =
      (Return (mkOptional (next_id s) (if truthy v then v else VNull)),
       bump s, []).
Proof.
  intros v s Hv. unfold Rich.of_.
  erewrite bind_Return by (apply requireNonNull_non_null; exact Hv).
  reflexivity.
Qed.

Lemma Minimal_of_any :
  forall v (s : store World),
    Minimal.of_ v s =
      (Return (mkOptional (next_id s) (if truthy v then v else VNull)),
       bump s, []).
Proof. reflexivity. Qed.

(** A truthy value is never [null] or [undefined]. *)
Lemma truthy_non_null : forall v, truthy v = true -> eq_null v = false.
Proof. intros v; destruct v; simpl; congruence. Qed.

(** X21: on truthy values [of] keeps its promise: it returns a present
    container, and [get] on it gives the value back. *)
Lemma Rich_of_truthy :
  forall v (s : store World),
    truthy v = true ->
    exists o,
      Rich.of_ v s = (Return o, bump s, [])
      /\ Rich.isPresent o = true
      /\ Rich.get o (bump s) = (Return v, bump s, []).
Proof.
  intros v s Hv. pose proof (truthy_non_null _ Hv) as Hn.
  exists (mkOptional (next_id s) v). split.
  - rewrite (Rich_of_non_null v s Hn), Hv. reflexivity.
  - unfold Rich.isPresent, Rich.get. simpl. rewrite Hn. split; reflexivity.
Qed.

End Running.

(** ** [of] on [null] *)

(** C5: [of(null)] fails with a NullPointerException and never returns a
    container; the store is left as it was and no callback is invoked.  The
    same holds for [undefined]. *)
Theorem of_null_throws :
  forall (World : Type) (s : store World),
    Rich.of_ VNull s = (Throw NullPointerException, s, [])
    /\ Rich.of_ VUndefined s = (Throw NullPointerException, s, [])
    /\ (forall o s1 t, Rich.of_ VNull s <> (Return o, s1, t)).
Proof.
  intros World s. repeat split.
  intros o s1 t H. discriminate H.
Qed.

Lemma of_null_throws_witness :
  Rich.of_ VNull Client.loaded
  = (Throw NullPointerException, Client.loaded, []).
Proof.
  apply (proj1 (of_null_throws unit Client.loaded)).
Defined.

(** ** [get] and [orElseThrow] *)

(** C9: on an empty container [get] throws NoSuchElementException with the
    message "No value present." and [orElseThrow] throws the same kind with
    the message "No value present"; on a present container both return the
    held value. *)
Theorem get_orElseThrow_contract :
  forall (World : Type) (c : Optional) (s : store World),
    (Rich.isPresent c = false ->
       Rich.get c s = (Throw (NoSuchElementException "No value present."), s, [])
       /\ Rich.orElseThrow c s
          = (Throw (NoSuchElementException "No value present"), s, []))
    /\ (Rich.isPresent c = true ->
       Rich.get c s = (Return (value c), s, [])
       /\ Rich.orElseThrow c s = (Return (value c), s, [])).
Proof.
  intros World c s. unfold Rich.isPresent, Rich.get, Rich.orElseThrow.
  destruct (eq_null (value c)); simpl; split; intros H;
    try discriminate H; split; reflexivity.
Qed.

Lemma get_orElseThrow_contract_witness :
  (Rich.get Rich.EMPTY Client.loaded
     = (Throw (NoSuchElementException "No value present."), Client.loaded, [])
   /\ Rich.orElseThrow Rich.EMPTY Client.loaded
     = (Throw (NoSuchElementException "No value present"), Client.loaded, []))
  /\ (Rich.get Client.some_five (Client.after_one) = (Return Client.five, Client.after_one, [])
      /\ Rich.orElseThrow Client.some_five (Client.after_one)
         = (Return Client.five, Client.after_one, [])).
Proof.
  split.
  - apply (proj1 (get_orElseThrow_contract unit Rich.EMPTY Client.loaded)).
    reflexivity.
  - apply (proj2 (get_orElseThrow_contract unit Client.some_five (Client.after_one))).
    reflexivity.
Defined.

(** ** [filter] *)

(** C8: for every container [c]: [filter] throws NullPointerException when
    the predicate is null; on an empty [c] it returns [c] itself and invokes
    nothing; on a present [c] it invokes the predicate once, on the held
    value, and returns [c] itself when the predicate answers [true] and
    [empty()] when it answers [false]. *)
Theorem filter_contract :
  forall (World : Type) (fenv : callbacks World) (c : Optional)
         (s : store World),
    (forall p, eq_null p = true ->
       Rich.filter fenv c p s = (Throw NullPointerException, s, []))
    /\ (forall p, eq_null p = false -> Rich.isPresent c = false ->
       Rich.filter fenv c p s = (Return c, s, []))
    /\ (forall p b s1, Rich.isPresent c = true ->
       fenv p [value c] s = (Return (VBoolean b), s1) ->
       Rich.filter fenv c (VFunction p) s
       = (Return (if b then c else Rich.EMPTY), s1, [Called p [value c]])).
Proof.
  intros World fenv c s. split; [|split].
  - intros p Hp. unfold Rich.filter.
    apply bind_Throw. apply requireNonNull_null. exact Hp.
  - intros p Hp Hc. unfold Rich.filter.
    erewrite bind_Return by (apply requireNonNull_non_null; exact Hp).
    rewrite Hc. reflexivity.
  - intros p b s1 Hc Hf. unfold Rich.filter.
    erewrite bind_Return by (apply requireNonNull_non_null; reflexivity).
    rewrite Hc. change (negb true) with false. cbv beta iota.
    erewrite bind_Return by (apply call_function; exact Hf).
    destruct b; reflexivity.
Qed.

Lemma filter_contract_witness :
  Rich.filter Client.fenv Client.some_five VNull Client.after_one
  = (Throw NullPointerException, Client.after_one, [])
  /\ Rich.filter Client.fenv Rich.EMPTY (VFunction Client.f_true)
       Client.after_one
     = (Return Rich.EMPTY, Client.after_one, [])
  /\ Rich.filter Client.fenv Client.some_five (VFunction Client.f_true)
       Client.after_one
     = (Return Client.some_five, Client.after_one,
        [Called Client.f_true [Client.five]])
  /\ Rich.filter Client.fenv Client.some_five (VFunction Client.f_false)
       Client.after_one
     = (Return Rich.EMPTY, Client.after_one,
        [Called Client.f_false [Client.five]]).
Proof.
  destruct (filter_contract unit Client.fenv Client.some_five Client.after_one)
    as (Hnull & _ & Hpresent).
  destruct (filter_contract unit Client.fenv Rich.EMPTY Client.after_one)
    as (_ & Hempty & _).
  split; [|split; [|split]].
  - apply Hnull. reflexivity.
  - apply Hempty; reflexivity.
  - apply (Hpresent Client.f_true true Client.after_one); reflexivity.
  - apply (Hpresent Client.f_false false Client.after_one); reflexivity.
Defined.

(** ** [map] *)

(** C7: for every container [c]: on an empty [c], [map] returns [empty()]
    and invokes nothing, whatever the callback; on a present [c] it invokes
    the callback once, on the held value, and returns what
    [ofNullable] makes of the callback's result, so that a callback
    producing null yields [empty()] and no failure. *)
Theorem map_contract :
  forall (World : Type) (fenv : callbacks World) (c : Optional)
         (s : store World),
    (forall f, Rich.isPresent c = false ->
       Rich.map fenv c f s = (Return Rich.EMPTY, s, []))
    /\ (forall f r s1, Rich.isPresent c = true ->
       fenv f [value c] s = (Return r, s1) ->
       Rich.map fenv c (VFunction f) s
       = (match Rich.ofNullable r s1 with
          | (o, s2, t) => (o, s2, Called f [value c] :: t)
          end)
       /\ (eq_null r = true ->
           Rich.map fenv c (VFunction f) s
           = (Return Rich.EMPTY, s1, [Called f [value c]]))).
Proof.
  intros World fenv c s. unfold Rich.isPresent. split.
  - intros f Hc. unfold Rich.map.
    destruct (eq_null (value c)); [reflexivity | discriminate Hc].
  - intros f r s1 Hc Hf.
    assert (Hrun : Rich.map fenv c (VFunction f) s
                   = match Rich.ofNullable r s1 with
                     | (o, s2, t) => (o, s2, Called f [value c] :: t)
                     end).
    { unfold Rich.map.
      destruct (eq_null (value c)); [discriminate Hc |].
      erewrite bind_Return by (apply call_function; exact Hf).
      reflexivity. }
    split; [exact Hrun |].
    intros Hr. rewrite Hrun. unfold Rich.ofNullable. rewrite Hr. reflexivity.
Qed.

Lemma map_contract_witness :
  Rich.map Client.fenv Rich.EMPTY (VFunction Client.f_ten) Client.after_one
  = (Return Rich.EMPTY, Client.after_one, [])
  /\ Rich.map Client.fenv Client.some_five (VFunction Client.f_ten)
       Client.after_one
     = (Return (mkOptional 2 Client.ten), mkStore 3 tt,
        [Called Client.f_ten [Client.five]])
  /\ Rich.map Client.fenv Client.some_five (VFunction Client.f_null)
       Client.after_one
     = (Return Rich.EMPTY, Client.after_one,
        [Called Client.f_null [Client.five]]).
Proof.
  destruct (map_contract unit Client.fenv Rich.EMPTY Client.after_one)
    as (Hempty & _).
  destruct (map_contract unit Client.fenv Client.some_five Client.after_one)
    as (_ & Hpresent).
  split; [|split].
  - apply Hempty. reflexivity.
  - apply (proj1 (Hpresent Client.f_ten Client.ten Client.after_one
                    eq_refl eq_refl)).
  - apply (proj2 (Hpresent Client.f_null VNull Client.after_one
                    eq_refl eq_refl)).
    reflexivity.
Defined.

(** ** [flatMap] *)

(** C6: for every container [c]: [flatMap] throws NullPointerException when
    the mapper is null; on an empty [c] it returns [empty()] and invokes
    nothing; on a present [c] it invokes the mapper once, on the held value,
    and returns exactly what the mapper produced, except that a null result
    is a NullPointerException. *)
Theorem flatMap_contract :
  forall (World : Type) (fenv : callbacks World) (c : Optional)
         (s : store World),
    (forall f, eq_null f = true ->
       Rich.flatMap fenv c f s = (Throw NullPointerException, s, []))
    /\ (forall f, eq_null f = false -> Rich.isPresent c = false ->
       Rich.flatMap fenv c f s = (Return (VOptional Rich.EMPTY), s, []))
    /\ (forall f r s1, Rich.isPresent c = true ->
       fenv f [value c] s = (Return r, s1) ->
       Rich.flatMap fenv c (VFunction f) s
       = (if eq_null r then Throw NullPointerException else Return r,
          s1, [Called f [value c]])).
Proof.
  intros World fenv c s. split; [|split].
  - intros f Hf. unfold Rich.flatMap.
    apply bind_Throw. apply requireNonNull_null. exact Hf.
  - intros f Hf Hc. unfold Rich.flatMap.
    erewrite bind_Return by (apply requireNonNull_non_null; exact Hf).
    rewrite Hc. reflexivity.
  - intros f r s1 Hc Hf. unfold Rich.flatMap.
    erewrite bind_Return by (apply requireNonNull_non_null; reflexivity).
    rewrite Hc. change (negb true) with false. cbv beta iota.
    erewrite bind_Return by (apply call_function; exact Hf).
    unfold Objects.requireNonNull.
    destruct (eq_null r); reflexivity.
Qed.

Lemma flatMap_contract_witness :
  Rich.flatMap Client.fenv Client.some_five VNull Client.after_one
  = (Throw NullPointerException, Client.after_one, [])
  /\ Rich.flatMap Client.fenv Rich.EMPTY (VFunction Client.f_wrap)
       Client.after_one
     = (Return (VOptional Rich.EMPTY), Client.after_one, [])
  /\ Rich.flatMap Client.fenv Client.some_five (VFunction Client.f_wrap)
       Client.after_one
     = (Return (VOptional (mkOptional 2 (VString "other"))), mkStore 3 tt,
        [Called Client.f_wrap [Client.five]])
  /\ Rich.flatMap Client.fenv Client.some_five (VFunction Client.f_null)
       Client.after_one
     = (Throw NullPointerException, Client.after_one,
        [Called Client.f_null [Client.five]]).
Proof.
  destruct (flatMap_contract unit Client.fenv Client.some_five
              Client.after_one) as (Hnull & _ & Hpresent).
  destruct (flatMap_contract unit Client.fenv Rich.EMPTY Client.after_one)
    as (_ & Hempty & _).
  split; [|split; [|split]].
  - apply Hnull. reflexivity.
  - apply Hempty; reflexivity.
  - apply (Hpresent Client.f_wrap
             (VOptional (mkOptional 2 (VString "other"))) (mkStore 3 tt));
      reflexivity.
  - apply (Hpresent Client.f_null VNull Client.after_one); reflexivity.
Defined.

(** ** Falsy values *)

(** C10: the constructor of both classes keeps its argument only when it is
    truthy.  Hence for every falsy value [v] other than null and undefined
    (such as [0], the empty string, [false], [NaN]), [of(v)] and
    [ofNullable(v)] return, in both classes, a container that is absent:
    [isPresent()] is false and [get()] throws.  In the richer class, once
    the class is loaded, that container is a newly allocated instance and
    not the [EMPTY] singleton. *)
Theorem falsy_value_wrapped_as_absent :
  forall (World : Type) (v : jsval) (s : store World),
    eq_null v = false ->
    truthy v = false ->
    (0 < next_id s)%N ->
    let o := mkOptional (next_id s) VNull in
    Rich.of_ v s = (Return o, bump s, [])
    /\ Rich.ofNullable v s = (Return o, bump s, [])
    /\ Minimal.of_ v s = (Return o, bump s, [])
    /\ Minimal.ofNullable v s = (Return o, bump s, [])
    /\ Rich.isPresent o = false
    /\ Minimal.isPresent o = false
    /\ Rich.get o (bump s)
       = (Throw (NoSuchElementException "No value present."), bump s, [])
    /\ Minimal.get o (bump s)
       = (Throw (NoSuchElementException "No value present."), bump s, [])
    /\ ident o <> ident Rich.EMPTY
    /\ o <> Rich.EMPTY.
Proof.
  intros World v s Hn Hf Hs o.
  assert (Hrich : Rich.of_ v s = (Return o, bump s, [])).
  { rewrite (Rich_of_non_null v s Hn), Hf. reflexivity. }
  assert (Hmin : Minimal.of_ v s = (Return o, bump s, [])).
  { rewrite (Minimal_of_any v s), Hf. reflexivity. }
  assert (Hid : ident o <> ident Rich.EMPTY).
  { simpl. lia. }
  repeat split; try assumption.
  - unfold Rich.ofNullable. rewrite Hn. exact Hrich.
  - unfold Minimal.ofNullable. rewrite Hn. exact Hmin.
  - intros Heq. apply Hid. rewrite Heq. reflexivity.
Qed.

Lemma falsy_value_wrapped_as_absent_witness :
  Rich.of_ Client.zero Client.loaded
  = (Return (mkOptional 1 VNull), Client.after_one, [])
  /\ Rich.ofNullable (VString EmptyString) Client.loaded
     = (Return (mkOptional 1 VNull), Client.after_one, [])
  /\ Minimal.of_ (VBoolean false) Client.loaded
     = (Return (mkOptional 1 VNull), Client.after_one, [])
  /\ Minimal.ofNullable Client.NaN Client.loaded
     = (Return (mkOptional 1 VNull), Client.after_one, [])
  /\ mkOptional 1 VNull <> Rich.EMPTY.
Proof.
  assert (Hs : (0 < next_id Client.loaded)%N) by reflexivity.
  split; [|split; [|split; [|split]]].
  - apply (falsy_value_wrapped_as_absent unit Client.zero Client.loaded
             eq_refl eq_refl Hs).
  - apply (falsy_value_wrapped_as_absent unit (VString EmptyString) Client.loaded
             eq_refl eq_refl Hs).
  - apply (falsy_value_wrapped_as_absent unit (VBoolean false) Client.loaded
             eq_refl eq_refl Hs).
  - apply (falsy_value_wrapped_as_absent unit Client.NaN Client.loaded
             eq_refl eq_refl Hs).
  - apply (falsy_value_wrapped_as_absent unit Client.zero Client.loaded
             eq_refl eq_refl Hs).
Defined.

(** ** Where the code departs from its documentation *)

Section AsWritten.
Context {World : Type}.
Variable fenv : callbacks World.

(** X19: [or], as written: a null supplier is a NullPointerException on
    every container; otherwise an empty container returns itself without
    consulting the supplier, and a present container invokes the supplier
    once and returns its result, a null result being a
    NullPointerException. *)
Lemma or_as_written :
  forall (c : Optional) (s : store World),
    (forall f, eq_null f = true ->
       Rich.or fenv c f s = (Throw NullPointerException, s, []))
    /\ (forall f, eq_null f = false -> Rich.isPresent c = false ->
       Rich.or fenv c f s = (Return (VOptional c), s, []))
    /\ (forall f r s1, Rich.isPresent c = true ->
       fenv f [] s = (Return r, s1) ->
       Rich.or fenv c (VFunction f) s
       = (if eq_null r then Throw NullPointerException else Return r,
          s1, [Called f []])).
Proof.
  intros c s. split; [|split].
  - intros f Hf. unfold Rich.or.
    apply bind_Throw. apply requireNonNull_null. exact Hf.
  - intros f Hf Hc. unfold Rich.or.
    erewrite bind_Return by (apply requireNonNull_non_null; exact Hf).
    rewrite Hc. reflexivity.
  - intros f r s1 Hc Hf. unfold Rich.or.
    erewrite bind_Return by (apply requireNonNull_non_null; reflexivity).
    rewrite Hc. change (negb true) with false. cbv beta iota.
    erewrite bind_Return by (apply call_function; exact Hf).
    unfold Objects.requireNonNull.
    destruct (eq_null r); reflexivity.
Qed.

(** [orElseGet], the sibling of [or], has the branches the right way round. *)
Lemma orElseGet_present :
  forall (c : Optional) (f : jsval) (s : store World),
    Rich.isPresent c = true ->
    Rich.orElseGet fenv c f s = (Return (value c), s, []).
Proof.
  intros c f s Hc. unfold Rich.orElseGet.
  change (negb (eq_null (value c))) with (Rich.isPresent c).
  rewrite Hc. reflexivity.
Qed.

Lemma bind_ext :
  forall A B (m : M World A) (k1 k2 : A -> M World B) s,
    (forall a s1, k1 a s1 = k2 a s1) ->
    bind m k1 s = bind m k2 s.
Proof.
  intros A B m k1 k2 s Hk. unfold bind.
  destruct (m s) as [[[a | e] s1] t1]; [rewrite Hk |]; reflexivity.
Qed.

(** X18: outside [of] on null and undefined, the minimal class does what
    the richer class does, on every operation it has and every input. *)
Lemma Minimal_agrees_elsewhere :
  Minimal.EMPTY = Rich.EMPTY
  /\ (forall s : store World, Minimal.empty s = Rich.empty s)
  /\ (forall v (s : store World),
        eq_null v = false -> Minimal.of_ v s = Rich.of_ v s)
  /\ (forall v (s : store World), Minimal.ofNullable v s = Rich.ofNullable v s)
  /\ (forall c (s : store World), Minimal.get c s = Rich.get c s)
  /\ (forall c, Minimal.isPresent c = Rich.isPresent c)
  /\ (forall c f s, Minimal.ifPresent fenv c f s = Rich.ifPresent fenv c f s)
  /\ (forall c f s, Minimal.map fenv c f s = Rich.map fenv c f s)
  /\ (forall c other, Minimal.orElse c other = Rich.orElse c other).
Proof.
  assert (Hof : forall v (s : store World),
             eq_null v = false -> Minimal.of_ v s = Rich.of_ v s).
  { intros v s Hv. rewrite (Rich_of_non_null v s Hv). reflexivity. }
  assert (Hnullable : forall v (s : store World),
             Minimal.ofNullable v s = Rich.ofNullable v s).
  { intros v s. unfold Minimal.ofNullable, Rich.ofNullable.
    destruct (eq_null v) eqn:Hv; [reflexivity | apply Hof; exact Hv]. }
  repeat split; try assumption; try reflexivity.
  intros c f s. unfold Minimal.map, Rich.map.
  destruct (eq_null (value c)); [reflexivity |].
  apply bind_ext. intros a s1. apply Hnullable.
Qed.

End AsWritten.

(** C1: [or] has its two branches the wrong way round.  A present container
    consults the supplier and returns the supplier's result instead of
    itself; the empty container returns itself and never consults the
    supplier. *)
Theorem or_branches_reversed :
  Rich.isPresent Client.some_five = true
  /\ Rich.or Client.fenv Client.some_five (VFunction Client.f_wrap)
       Client.after_one
     = (Return (VOptional (mkOptional 2 (VString "other"))), mkStore 3 tt,
        [Called Client.f_wrap []])
  /\ Rich.isPresent Rich.EMPTY = false
  /\ Rich.or Client.fenv Rich.EMPTY (VFunction Client.f_wrap)
       Client.after_one
     = (Return (VOptional Rich.EMPTY), Client.after_one, []).
Proof. repeat split. Qed.

(** C2: [of(0)] does not throw, yet the container it returns is not
    present and [get()] on it throws, although [0] is not null. *)
Theorem of_zero_not_present :
  eq_null Client.zero = false
  /\ Rich.of_ Client.zero Client.loaded
     = (Return (mkOptional 1 VNull), Client.after_one, [])
  /\ Rich.isPresent (mkOptional 1 VNull) = false
  /\ Rich.get (mkOptional 1 VNull) Client.after_one
     = (Throw (NoSuchElementException "No value present."),
        Client.after_one, []).
Proof. repeat split. Qed.

(** C3: absent instances other than [EMPTY] are produced: [ofNullable(0)]
    and [map] with a callback returning [0] each return a newly allocated
    instance that is absent. *)
Theorem absent_instance_other_than_EMPTY :
  (Rich.ofNullable Client.zero Client.loaded
   = (Return (mkOptional 1 VNull), Client.after_one, [])
   /\ Rich.isPresent (mkOptional 1 VNull) = false
   /\ mkOptional 1 VNull <> Rich.EMPTY)
  /\ (Rich.map Client.fenv Client.some_five (VFunction Client.f_zero)
        Client.after_one
      = (Return (mkOptional 2 VNull), mkStore 3 tt,
         [Called Client.f_zero [Client.five]])
      /\ Rich.isPresent (mkOptional 2 VNull) = false
      /\ mkOptional 2 VNull <> Rich.EMPTY).
Proof. repeat split; discriminate. Qed.

(** C4: on [null] the two classes differ: the minimal [of] returns a
    container, the richer [of] throws NullPointerException. *)
Theorem Minimal_of_null_returns_container :
  Minimal.of_ VNull Client.loaded
  = (Return (mkOptional 1 VNull), Client.after_one, [])
  /\ Rich.of_ VNull Client.loaded
     = (Throw NullPointerException, Client.loaded, [])
  /\ Minimal.of_ VNull Client.loaded <> Rich.of_ VNull Client.loaded.
Proof. repeat split. discriminate. Qed.

(** * Further properties of the code *)

(** ** [Objects.requireNonNull] *)

(** X1: [requireNonNull] throws for [null] and [undefined] and for nothing
    else: every other value, the falsy ones included, is returned as it
    is. *)
Theorem requireNonNull_rejects_only_null_and_undefined :
  forall (World : Type) (v : jsval) (s : store World),
    (Objects.requireNonNull v s = (Throw NullPointerException, s, [])
     <-> (v = VNull \/ v = VUndefined))
    /\ (Objects.requireNonNull v s = (Return v, s, [])
        <-> (v <> VNull /\ v <> VUndefined)).
Proof.
  intros World v s. unfold Objects.requireNonNull, throw, ret.
  destruct v; simpl; split; split;
    try (intros H; discriminate H);
    try (intros [H | H]; discriminate H);
    try (intros [H1 H2]; congruence);
    try (intros _; split; discriminate);
    try (intros _; reflexivity);
    try (intros _; auto).
Qed.

Lemma requireNonNull_rejects_only_null_and_undefined_witness :
  Objects.requireNonNull Client.zero Client.loaded
  = (Return Client.zero, Client.loaded, [])
  /\ Objects.requireNonNull VUndefined Client.loaded
     = (Throw NullPointerException, Client.loaded, []).
Proof.
  split.
  - apply (proj2 (proj2 (requireNonNull_rejects_only_null_and_undefined
                           unit Client.zero Client.loaded))).
    split; discriminate.
  - apply (proj2 (proj1 (requireNonNull_rejects_only_null_and_undefined
                           unit VUndefined Client.loaded))).
    right. reflexivity.
Defined.

(** ** The factories *)

(** X2: whatever a factory of either class returns is present exactly when
    the argument is truthy; it then holds the argument, and otherwise holds
    [null]. *)
Theorem factory_result_present_iff_truthy :
  forall (World : Type) (v : jsval) (s s1 : store World) (o : Optional)
         (t : list event),
    Rich.of_ v s = (Return o, s1, t)
    \/ Rich.ofNullable v s = (Return o, s1, t)
    \/ Minimal.of_ v s = (Return o, s1, t)
    \/ Minimal.ofNullable v s = (Return o, s1, t) ->
    Rich.isPresent o = truthy v
    /\ value o = (if truthy v then v else VNull)
    /\ t = [].
Proof.
  intros World v s s1 o t H.
  assert (Hmin : Minimal.of_ v s = (Return o, s1, t) ->
                 Rich.isPresent o = truthy v
                 /\ value o = (if truthy v then v else VNull) /\ t = []).
  { rewrite (Minimal_of_any v s). intros E. inversion E; subst.
    unfold Rich.isPresent. simpl.
    destruct (truthy v) eqn:Hv; [rewrite (truthy_non_null v Hv) |];
      repeat split. }
  assert (Hnull : eq_null v = true ->
                  (Return Rich.EMPTY, s, @nil event) = (Return o, s1, t) ->
                  Rich.isPresent o = truthy v
                  /\ value o = (if truthy v then v else VNull) /\ t = []).
  { intros Hv E. inversion E; subst.
    destruct v; try discriminate Hv; repeat split. }
  assert (Hrich : Rich.of_ v s = (Return o, s1, t) ->
                  Rich.isPresent o = truthy v
                  /\ value o = (if truthy v then v else VNull) /\ t = []).
  { destruct (eq_null v) eqn:Hv.
    - unfold Rich.of_.
      erewrite bind_Throw by (apply requireNonNull_null; exact Hv).
      intros E; discriminate E.
    - rewrite (Rich_of_non_null v s Hv). apply Hmin. }
  destruct H as [H | [H | [H | H]]].
  - apply Hrich, H.
  - unfold Rich.ofNullable in H. destruct (eq_null v) eqn:Hv.
    + apply Hnull; [reflexivity | exact H].
    + apply Hrich, H.
  - apply Hmin, H.
  - unfold Minimal.ofNullable in H. destruct (eq_null v) eqn:Hv.
    + apply Hnull; [reflexivity | exact H].
    + apply Hmin, H.
Qed.

Lemma factory_result_present_iff_truthy_witness :
  Rich.isPresent Client.some_five = truthy Client.five
  /\ value Client.some_five = Client.five
  /\ @nil event = [].
Proof.
  apply (factory_result_present_iff_truthy unit Client.five Client.loaded
           Client.after_one Client.some_five []).
  left. reflexivity.
Defined.

(** X3: [ofNullable] never throws; on [null] and [undefined] it returns the
    [EMPTY] singleton itself and allocates nothing, and on every other value
    it allocates exactly one instance. *)
Theorem ofNullable_never_throws :
  forall (World : Type) (v : jsval) (s : store World),
    (forall e s1 t, Rich.ofNullable v s <> (Throw e, s1, t))
    /\ (eq_null v = true -> Rich.ofNullable v s = (Return Rich.EMPTY, s, []))
    /\ (eq_null v = false ->
        exists o, Rich.ofNullable v s = (Return o, bump s, [])
                  /\ ident o = next_id s).
Proof.
  intros World v s. unfold Rich.ofNullable.
  destruct (eq_null v) eqn:Hv.
  - split; [|split].
    + intros e s1 t H. discriminate H.
    + intros _. reflexivity.
    + intros H. discriminate H.
  - rewrite (Rich_of_non_null v s Hv). split; [|split].
    + intros e s1 t H. discriminate H.
    + intros H. discriminate H.
    + intros _. eexists. split; reflexivity.
Qed.

Lemma ofNullable_never_throws_witness :
  Rich.ofNullable VUndefined Client.loaded
  = (Return Rich.EMPTY, Client.loaded, [])
  /\ (exists o, Rich.ofNullable Client.five Client.loaded
                = (Return o, bump Client.loaded, [])
                /\ ident o = next_id Client.loaded).
Proof.
  destruct (ofNullable_never_throws unit VUndefined Client.loaded)
    as (_ & Hnull & _).
  destruct (ofNullable_never_throws unit Client.five Client.loaded)
    as (_ & _ & Hother).
  split; [apply Hnull | apply Hother]; reflexivity.
Defined.

(** X4: two calls of [of] in a row never return the same instance, even for
    the same value: each result carries the identity the allocation counter
    had, and the counter moves on by one per call.  Once the class is
    loaded, neither result is the [EMPTY] singleton. *)
Theorem of_allocates_fresh_instances :
  forall (World : Type) (v w : jsval) (s s1 s2 : store World)
         (o1 o2 : Optional) (t1 t2 : list event),
    Rich.of_ v s = (Return o1, s1, t1) ->
    Rich.of_ w s1 = (Return o2, s2, t2) ->
    ident o1 = next_id s
    /\ ident o2 = N.succ (next_id s)
    /\ next_id s2 = N.succ (N.succ (next_id s))
    /\ o1 <> o2
    /\ ((0 < next_id s)%N -> o1 <> Rich.EMPTY /\ o2 <> Rich.EMPTY).
Proof.
  intros World v w s s1 s2 o1 o2 t1 t2 H1 H2.
  assert (Hone : forall x (a b : store World) o t,
             Rich.of_ x a = (Return o, b, t) ->
             ident o = next_id a /\ next_id b = N.succ (next_id a)).
  { intros x a b o t H. destruct (eq_null x) eqn:Hx.
    - unfold Rich.of_ in H.
      erewrite bind_Throw in H by (apply requireNonNull_null; exact Hx).
      discriminate H.
    - rewrite (Rich_of_non_null x a Hx) in H. inversion H; subst.
      split; reflexivity. }
  destruct (Hone v s s1 o1 t1 H1) as [Ho1 Hs1].
  destruct (Hone w s1 s2 o2 t2 H2) as [Ho2 Hs2].
  rewrite Hs1 in Ho2, Hs2.
  repeat split; try assumption.
  - intros E. rewrite E in Ho1. rewrite Ho1 in Ho2. lia.
  - intros E. rewrite E in Ho1. simpl in Ho1. lia.
  - intros E. rewrite E in Ho2. simpl in Ho2. lia.
Qed.

Lemma of_allocates_fresh_instances_witness :
  ident Client.some_five = next_id Client.loaded
  /\ ident (mkOptional 2 Client.five) = N.succ (next_id Client.loaded)
  /\ next_id (mkStore 3 tt) = N.succ (N.succ (next_id Client.loaded))
  /\ Client.some_five <> mkOptional 2 Client.five
  /\ ((0 < next_id Client.loaded)%N ->
      Client.some_five <> Rich.EMPTY
      /\ mkOptional 2 Client.five <> Rich.EMPTY).
Proof.
  apply (of_allocates_fresh_instances unit Client.five Client.five
           Client.loaded Client.after_one (mkStore 3 tt)
           Client.some_five (mkOptional 2 Client.five) [] []);
    reflexivity.
Defined.

(** ** Queries *)

(** X5: [isEmpty] is the negation of [isPresent], and it tells exactly when
    [get] throws: on an instance that is empty [get] throws, on one that is
    not it returns the held value; the store is never touched. *)
Theorem isEmpty_iff_get_throws :
  forall (World : Type) (c : Optional) (s : store World),
    Rich.isEmpty c = negb (Rich.isPresent c)
    /\ (Rich.isEmpty c = true <-> exists e, Rich.get c s = (Throw e, s, []))
    /\ (Rich.isEmpty c = false <-> Rich.get c s = (Return (value c), s, [])).
Proof.
  intros World c s. unfold Rich.isEmpty, Rich.isPresent, Rich.get.
  destruct (eq_null (value c)); simpl; repeat split;
    try (intros H; discriminate H); try reflexivity.
  - intros _. eexists. reflexivity.
  - intros [e H]. discriminate H.
Qed.

Lemma isEmpty_iff_get_throws_witness :
  (exists e, Rich.get Rich.EMPTY Client.loaded = (Throw e, Client.loaded, []))
  /\ Rich.get Client.some_five Client.after_one
     = (Return (value Client.some_five), Client.after_one, []).
Proof.
  split.
  - apply (proj1 (proj1 (proj2 (isEmpty_iff_get_throws unit Rich.EMPTY
                                  Client.loaded)))).
    reflexivity.
  - apply (proj1 (proj2 (proj2 (isEmpty_iff_get_throws unit Client.some_five
                                  Client.after_one)))).
    reflexivity.
Defined.

(** ** Conditional actions *)

(** X6: [ifPresent] does nothing on an empty container, whatever the action
    is; on a present container it invokes the action once, on the held
    value, discards what the action returns and lets through what the
    action throws. *)
Theorem ifPresent_contract :
  forall (World : Type) (fenv : callbacks World) (c : Optional)
         (s : store World),
    (forall a, Rich.isPresent c = false ->
       Rich.ifPresent fenv c a s = (Return tt, s, []))
    /\ (forall a r s1, Rich.isPresent c = true ->
       fenv a [value c] s = (r, s1) ->
       Rich.ifPresent fenv c (VFunction a) s
       = (discard r, s1, [Called a [value c]])).
Proof.
  intros World fenv c s. unfold Rich.isPresent, Rich.ifPresent. split.
  - intros a Hc. rewrite Hc. reflexivity.
  - intros a r s1 Hc Hf. rewrite Hc. unfold bind, call. rewrite Hf.
    destruct r; reflexivity.
Qed.

Lemma ifPresent_contract_witness :
  Rich.ifPresent Tally.fenv Rich.EMPTY (VFunction Tally.f_id) Tally.start
  = (Return tt, Tally.start, [])
  /\ Rich.ifPresent Tally.fenv Tally.some_a (VFunction Tally.f_id) Tally.start
     = (Return tt, Tally.tick Tally.start,
        [Called Tally.f_id [VString "a"]])
  /\ Rich.ifPresent Tally.fenv Tally.some_a (VFunction Tally.f_throw)
       Tally.start
     = (Throw (Thrown (VString "boom")), Tally.tick Tally.start,
        [Called Tally.f_throw [VString "a"]]).
Proof.
  destruct (ifPresent_contract nat Tally.fenv Rich.EMPTY Tally.start)
    as (Hempty & _).
  destruct (ifPresent_contract nat Tally.fenv Tally.some_a Tally.start)
    as (_ & Hpresent).
  split; [|split].
  - apply Hempty. reflexivity.
  - apply (Hpresent Tally.f_id (Return (VString "a"))
             (Tally.tick Tally.start)); reflexivity.
  - apply (Hpresent Tally.f_throw (Throw (Thrown (VString "boom")))
             (Tally.tick Tally.start)); reflexivity.
Defined.

(** X7: [ifPresentOrElse] invokes exactly one of its two callbacks: the
    action, on the held value, when the container is present, and the
    empty-based action, without argument, when it is empty.  The other
    callback is not looked at (it may even be null). *)
Theorem ifPresentOrElse_invokes_exactly_one :
  forall (World : Type) (fenv : callbacks World) (c : Optional)
         (s : store World),
    (forall a b r s1, Rich.isPresent c = true ->
       fenv a [value c] s = (r, s1) ->
       Rich.ifPresentOrElse fenv c (VFunction a) b s
       = (discard r, s1, [Called a [value c]]))
    /\ (forall a b r s1, Rich.isPresent c = false ->
       fenv b [] s = (r, s1) ->
       Rich.ifPresentOrElse fenv c a (VFunction b) s
       = (discard r, s1, [Called b []])).
Proof.
  intros World fenv c s. unfold Rich.isPresent, Rich.ifPresentOrElse.
  split; intros a b r s1 Hc Hf; rewrite Hc; unfold bind, call; rewrite Hf;
    destruct r; reflexivity.
Qed.

Lemma ifPresentOrElse_invokes_exactly_one_witness :
  Rich.ifPresentOrElse Tally.fenv Tally.some_a (VFunction Tally.f_id) VNull
    Tally.start
  = (Return tt, Tally.tick Tally.start, [Called Tally.f_id [VString "a"]])
  /\ Rich.ifPresentOrElse Tally.fenv Rich.EMPTY VNull
       (VFunction Tally.f_fallback) Tally.start
     = (Return tt, Tally.tick Tally.start, [Called Tally.f_fallback []]).
Proof.
  split.
  - apply (proj1 (ifPresentOrElse_invokes_exactly_one nat Tally.fenv
                    Tally.some_a Tally.start)
             Tally.f_id VNull (Return (VString "a"))
             (Tally.tick Tally.start)); reflexivity.
  - apply (proj2 (ifPresentOrElse_invokes_exactly_one nat Tally.fenv
                    Rich.EMPTY Tally.start)
             VNull Tally.f_fallback (Return (VString "fallback"))
             (Tally.tick Tally.start)); reflexivity.
Defined.

(** ** Fallbacks *)

(** X8: [orElse] gives the held value of a present container and [other] for
    an empty one; hence its result is null only if the container is empty
    and [other] itself is null.  Both classes agree. *)
Theorem orElse_contract :
  forall (c : Optional) (other : jsval),
    (Rich.isPresent c = true -> Rich.orElse c other = value c)
    /\ (Rich.isPresent c = false -> Rich.orElse c other = other)
    /\ (eq_null other = false -> eq_null (Rich.orElse c other) = false)
    /\ Minimal.orElse c other = Rich.orElse c other.
Proof.
  intros c other. unfold Rich.isPresent, Rich.orElse, Minimal.orElse.
  destruct (eq_null (value c)) eqn:Hc; simpl; repeat split;
    try (intros H; discriminate H); try (intros H; exact H).
  intros _. exact Hc.
Qed.

Lemma orElse_contract_witness :
  Rich.orElse Client.some_five Client.ten = Client.five
  /\ Rich.orElse Rich.EMPTY Client.ten = Client.ten
  /\ eq_null (Rich.orElse Rich.EMPTY Client.zero) = false.
Proof.
  split; [|split].
  - apply (proj1 (orElse_contract Client.some_five Client.ten)).
    reflexivity.
  - apply (proj1 (proj2 (orElse_contract Rich.EMPTY Client.ten))).
    reflexivity.
  - apply (proj1 (proj2 (proj2 (orElse_contract Rich.EMPTY Client.zero)))).
    reflexivity.
Defined.

(** X9: [orElseGet] is lazy: a present container returns its value and the
    supplier is neither checked nor invoked; an empty container invokes the
    supplier once and returns its result, a null result being a
    NullPointerException. *)
Theorem orElseGet_contract :
  forall (World : Type) (fenv : callbacks World) (c : Optional)
         (s : store World),
    (forall f, Rich.isPresent c = true ->
       Rich.orElseGet fenv c f s = (Return (value c), s, []))
    /\ (forall f r s1, Rich.isPresent c = false ->
       fenv f [] s = (Return r, s1) ->
       Rich.orElseGet fenv c (VFunction f) s
       = (if eq_null r then Throw NullPointerException else Return r,
          s1, [Called f []])).
Proof.
  intros World fenv c s. unfold Rich.isPresent, Rich.orElseGet. split.
  - intros f Hc. rewrite Hc. reflexivity.
  - intros f r s1 Hc Hf. rewrite Hc.
    erewrite bind_Return by (apply call_function; exact Hf).
    unfold Objects.requireNonNull. destruct (eq_null r); reflexivity.
Qed.

Lemma orElseGet_contract_witness :
  Rich.orElseGet Tally.fenv Tally.some_a VNull Tally.start
  = (Return (VString "a"), Tally.start, [])
  /\ Rich.orElseGet Tally.fenv Rich.EMPTY (VFunction Tally.f_fallback)
       Tally.start
     = (Return (VString "fallback"), Tally.tick Tally.start,
        [Called Tally.f_fallback []])
  /\ Rich.orElseGet Tally.fenv Rich.EMPTY (VFunction Tally.f_null)
       Tally.start
     = (Throw NullPointerException, Tally.tick Tally.start,
        [Called Tally.f_null []]).
Proof.
  destruct (orElseGet_contract nat Tally.fenv Tally.some_a Tally.start)
    as (Hpresent & _).
  destruct (orElseGet_contract nat Tally.fenv Rich.EMPTY Tally.start)
    as (_ & Hempty).
  split; [|split].
  - apply Hpresent. reflexivity.
  - apply (Hempty Tally.f_fallback (VString "fallback")
             (Tally.tick Tally.start)); reflexivity.
  - apply (Hempty Tally.f_null VNull (Tally.tick Tally.start)); reflexivity.
Defined.

(** X10: [orElseThrowSpecified] returns the value of a present container
    without invoking the supplier; on an empty container it invokes the
    supplier once and throws whatever the supplier returned, unchecked (a
    null result is thrown as it is). *)
Theorem orElseThrowSpecified_contract :
  forall (World : Type) (fenv : callbacks World) (c : Optional)
         (s : store World),
    (forall f, Rich.isPresent c = true ->
       Rich.orElseThrowSpecified fenv c f s = (Return (value c), s, []))
    /\ (forall f r s1, Rich.isPresent c = false ->
       fenv f [] s = (Return r, s1) ->
       Rich.orElseThrowSpecified fenv c (VFunction f) s
       = (Throw (Thrown r), s1, [Called f []])).
Proof.
  intros World fenv c s. unfold Rich.isPresent, Rich.orElseThrowSpecified.
  split.
  - intros f Hc. rewrite Hc. reflexivity.
  - intros f r s1 Hc Hf. rewrite Hc.
    erewrite bind_Return by (apply call_function; exact Hf).
    reflexivity.
Qed.

Lemma orElseThrowSpecified_contract_witness :
  Rich.orElseThrowSpecified Tally.fenv Tally.some_a
    (VFunction Tally.f_fallback) Tally.start
  = (Return (VString "a"), Tally.start, [])
  /\ Rich.orElseThrowSpecified Tally.fenv Rich.EMPTY
       (VFunction Tally.f_fallback) Tally.start
     = (Throw (Thrown (VString "fallback")), Tally.tick Tally.start,
        [Called Tally.f_fallback []])
  /\ Rich.orElseThrowSpecified Tally.fenv Rich.EMPTY
       (VFunction Tally.f_null) Tally.start
     = (Throw (Thrown VNull), Tally.tick Tally.start,
        [Called Tally.f_null []]).
Proof.
  destruct (orElseThrowSpecified_contract nat Tally.fenv Tally.some_a
              Tally.start) as (Hpresent & _).
  destruct (orElseThrowSpecified_contract nat Tally.fenv Rich.EMPTY
              Tally.start) as (_ & Hempty).
  split; [|split].
  - apply Hpresent. reflexivity.
  - apply (Hempty Tally.f_fallback (VString "fallback")
             (Tally.tick Tally.start)); reflexivity.
  - apply (Hempty Tally.f_null VNull (Tally.tick Tally.start)); reflexivity.
Defined.

(** ** Callbacks: failures, count, null *)

(** X11: nothing is caught: when the callback throws, [filter], [map],
    [flatMap] and [or] (on a present container) and [orElseGet] and
    [orElseThrowSpecified] (on an empty one) throw the same exception, after
    that one invocation, and leave the store as the callback left it. *)
Theorem callback_exceptions_propagate :
  forall (World : Type) (fenv : callbacks World) (c : Optional) (f : N)
         (e : exn) (s s1 : store World),
    (Rich.isPresent c = true ->
     fenv f [value c] s = (Throw e, s1) ->
     Rich.filter fenv c (VFunction f) s = (Throw e, s1, [Called f [value c]])
     /\ Rich.map fenv c (VFunction f) s = (Throw e, s1, [Called f [value c]])
     /\ Rich.flatMap fenv c (VFunction f) s
        = (Throw e, s1, [Called f [value c]]))
    /\ (Rich.isPresent c = true ->
        fenv f [] s = (Throw e, s1) ->
        Rich.or fenv c (VFunction f) s = (Throw e, s1, [Called f []]))
    /\ (Rich.isPresent c = false ->
        fenv f [] s = (Throw e, s1) ->
        Rich.orElseGet fenv c (VFunction f) s = (Throw e, s1, [Called f []])
        /\ Rich.orElseThrowSpecified fenv c (VFunction f) s
           = (Throw e, s1, [Called f []])).
Proof.
  intros World fenv c f e s s1.
  unfold Rich.filter, Rich.map, Rich.flatMap, Rich.or, Rich.orElseGet,
    Rich.orElseThrowSpecified, Rich.isPresent.
  split; [|split]; intros Hc Hf.
  - destruct (eq_null (value c)); [discriminate Hc |].
    repeat split; unfold bind, call; simpl; rewrite Hf; reflexivity.
  - destruct (eq_null (value c)); [discriminate Hc |].
    unfold bind, call; simpl; rewrite Hf; reflexivity.
  - destruct (eq_null (value c)); [| discriminate Hc].
    split; unfold bind, call; simpl; rewrite Hf; reflexivity.
Qed.

Lemma callback_exceptions_propagate_witness :
  Rich.map Tally.fenv Tally.some_a (VFunction Tally.f_throw) Tally.start
  = (Throw (Thrown (VString "boom")), Tally.tick Tally.start,
     [Called Tally.f_throw [VString "a"]])
  /\ Rich.or Tally.fenv Tally.some_a (VFunction Tally.f_throw) Tally.start
     = (Throw (Thrown (VString "boom")), Tally.tick Tally.start,
        [Called Tally.f_throw []])
  /\ Rich.orElseGet Tally.fenv Rich.EMPTY (VFunction Tally.f_throw)
       Tally.start
     = (Throw (Thrown (VString "boom")), Tally.tick Tally.start,
        [Called Tally.f_throw []]).
Proof.
  destruct (callback_exceptions_propagate nat Tally.fenv Tally.some_a
              Tally.f_throw (Thrown (VString "boom")) Tally.start
              (Tally.tick Tally.start)) as (Harg & Hor & _).
  destruct (callback_exceptions_propagate nat Tally.fenv Rich.EMPTY
              Tally.f_throw (Thrown (VString "boom")) Tally.start
              (Tally.tick Tally.start)) as (_ & _ & Hget).
  split; [|split].
  - apply (proj1 (proj2 (Harg eq_refl eq_refl))).
  - apply (Hor eq_refl eq_refl).
  - apply (proj1 (Hget eq_refl eq_refl)).
Defined.

Section Counting.
Context {World : Type}.
Variable fenv : callbacks World.

Lemma invocations_bind :
  forall A B (m : M World A) (k : A -> M World B) s a b,
    invocations (m s) <= a ->
    (forall x s1, invocations (k x s1) <= b) ->
    invocations (bind m k s) <= a + b.
Proof.
  intros A B m k s a b Hm Hk. unfold invocations, bind in *.
  destruct (m s) as [[[x | e] s1] t1]; simpl in *.
  - specialize (Hk x s1). destruct (k x s1) as [[r s2] t2]. simpl in *.
    rewrite length_app. lia.
  - lia.
Qed.

Lemma invocations_call :
  forall f args s, invocations (call fenv f args s) <= 1.
Proof.
  intros f args s. unfold invocations, call.
  destruct f; simpl; try lia.
  destruct (fenv f args s); simpl; lia.
Qed.

Lemma invocations_requireNonNull :
  forall v (s : store World), invocations (Objects.requireNonNull v s) <= 0.
Proof.
  intros v s. unfold invocations, Objects.requireNonNull.
  destruct (eq_null v); simpl; lia.
Qed.

Lemma invocations_ofNullable :
  forall v (s : store World), invocations (Rich.ofNullable v s) <= 0.
Proof.
  intros v s. unfold invocations, Rich.ofNullable, Rich.of_,
    Objects.requireNonNull.
  destruct (eq_null v); simpl; lia.
Qed.

End Counting.

(** X12: no method invokes more than one callback, on any container, with
    any arguments and in any store; [ifPresentOrElse], which receives two
    callbacks, is included. *)
Theorem at_most_one_invocation :
  forall (World : Type) (fenv : callbacks World) (c : Optional)
         (f g : jsval) (s : store World),
    invocations (Rich.ifPresent fenv c f s) <= 1
    /\ invocations (Rich.ifPresentOrElse fenv c f g s) <= 1
    /\ invocations (Rich.filter fenv c f s) <= 1
    /\ invocations (Rich.map fenv c f s) <= 1
    /\ invocations (Rich.flatMap fenv c f s) <= 1
    /\ invocations (Rich.or fenv c f s) <= 1
    /\ invocations (Rich.orElseGet fenv c f s) <= 1
    /\ invocations (Rich.orElseThrowSpecified fenv c f s) <= 1.
Proof.
  intros World fenv c f g s.
  assert (Hret : forall A (a : A) (s1 : store World),
             invocations (ret a s1) <= 0) by (intros; apply Nat.le_refl).
  assert (Hthrow : forall A e (s1 : store World),
             invocations (@throw World A e s1) <= 0)
    by (intros; apply Nat.le_refl).
  assert (Hcall : forall h args A (a : A) (s1 : store World),
             invocations ((call fenv h args ;; ret a) s1) <= 1).
  { intros. apply invocations_bind with (a := 1) (b := 0).
    - apply invocations_call.
    - intros. apply Hret. }
  assert (Hreq : forall h args (s1 : store World),
             invocations
               ((r <- call fenv h args ;; Objects.requireNonNull r) s1) <= 1).
  { intros. apply invocations_bind with (a := 1) (b := 0).
    - apply invocations_call.
    - intros. apply invocations_requireNonNull. }
  unfold Rich.ifPresent, Rich.ifPresentOrElse, Rich.filter, Rich.map,
    Rich.flatMap, Rich.or, Rich.orElseGet, Rich.orElseThrowSpecified,
    Rich.isPresent, Rich.empty.
  repeat split.
  - destruct (negb (eq_null (value c))); [apply Hcall | apply Nat.le_0_l].
  - destruct (negb (eq_null (value c))); apply Hcall.
  - apply invocations_bind with (a := 0) (b := 1); [apply invocations_requireNonNull |].
    intros _ s1. destruct (negb (negb (eq_null (value c)))).
    + apply Nat.le_0_l.
    + apply invocations_bind with (a := 1) (b := 0); [apply invocations_call |].
      intros r s2. destruct (truthy r); apply Hret.
  - destruct (eq_null (value c)); [apply Nat.le_0_l |].
    apply invocations_bind with (a := 1) (b := 0); [apply invocations_call |].
    intros r s1. apply invocations_ofNullable.
  - apply invocations_bind with (a := 0) (b := 1); [apply invocations_requireNonNull |].
    intros _ s1. destruct (negb (negb (eq_null (value c)))).
    + apply Nat.le_0_l.
    + apply Hreq.
  - apply invocations_bind with (a := 0) (b := 1); [apply invocations_requireNonNull |].
    intros _ s1. destruct (negb (negb (eq_null (value c)))).
    + apply Nat.le_0_l.
    + apply Hreq.
  - destruct (negb (eq_null (value c))); [apply Nat.le_0_l | apply Hreq].
  - destruct (negb (eq_null (value c))); [apply Nat.le_0_l |].
    apply invocations_bind with (a := 1) (b := 0); [apply invocations_call |].
    intros r s1. apply Hthrow.
Qed.

(** X13: a null callback is treated differently by different methods.
    [filter], [flatMap] and [or] reject it with NullPointerException on
    every container; [map] and [ifPresent] do not check it: on an empty container they complete normally, and on a
    present one the attempt to call it is a TypeError, not a
    NullPointerException. *)
Theorem unchecked_null_callback :
  forall (World : Type) (fenv : callbacks World) (c : Optional) (f : jsval)
         (s : store World),
    eq_null f = true ->
    (Rich.isPresent c = false ->
     Rich.map fenv c f s = (Return Rich.EMPTY, s, [])
     /\ Rich.ifPresent fenv c f s = (Return tt, s, []))
    /\ (Rich.isPresent c = true ->
        Rich.map fenv c f s = (Throw TypeError, s, [])
        /\ Rich.ifPresent fenv c f s = (Throw TypeError, s, [])).
Proof.
  intros World fenv c f s Hf.
  unfold Rich.isPresent, Rich.map, Rich.ifPresent.
  destruct (eq_null (value c)); simpl; split; intros Hc;
    try discriminate Hc.
  - split; reflexivity.
  - destruct f; try discriminate Hf; split; reflexivity.
Qed.

Lemma unchecked_null_callback_witness :
  (Rich.map Client.fenv Rich.EMPTY VNull Client.after_one
   = (Return Rich.EMPTY, Client.after_one, [])
   /\ Rich.ifPresent Client.fenv Rich.EMPTY VNull Client.after_one
      = (Return tt, Client.after_one, []))
  /\ (Rich.map Client.fenv Client.some_five VNull Client.after_one
      = (Throw TypeError, Client.after_one, [])
      /\ Rich.ifPresent Client.fenv Client.some_five VNull Client.after_one
         = (Throw TypeError, Client.after_one, [])).
Proof.
  split.
  - apply (proj1 (unchecked_null_callback unit Client.fenv Rich.EMPTY VNull
                    Client.after_one eq_refl)).
    reflexivity.
  - apply (proj2 (unchecked_null_callback unit Client.fenv Client.some_five
                    VNull Client.after_one eq_refl)).
    reflexivity.
Defined.

(** ** Transformations and truthiness *)

Section Shapes.
Context {World : Type}.

(** The result of [ofNullable], for every argument. *)
Lemma Rich_ofNullable_run :
  forall v (s : store World),
    Rich.ofNullable v s
    = (Return (mkOptional (if eq_null v then 0%N else next_id s)
                          (if truthy v then v else VNull)),
       (if eq_null v then s else bump s), []).
Proof.
  intros v s. unfold Rich.ofNullable.
  destruct (eq_null v) eqn:Hv.
  - destruct v; try discriminate Hv; reflexivity.
  - apply Rich_of_non_null. exact Hv.
Qed.

Lemma bind_inv_Return :
  forall A B (m : M World A) (k : A -> M World B) s b s2 t,
    bind m k s = (Return b, s2, t) ->
    exists a s1 t1 t2,
      m s = (Return a, s1, t1)
      /\ k a s1 = (Return b, s2, t2)
      /\ t = t1 ++ t2.
Proof.
  intros A B m k s b s2 t H. unfold bind in H.
  destruct (m s) as [[[a | e] s1] t1]; [| discriminate H].
  destruct (k a s1) as [[r s3] t2] eqn:Hk.
  inversion H; subst.
  exists a, s1, t1, t2. repeat split. exact Hk.
Qed.

End Shapes.



(** X15: [filter] coerces what the predicate returns: the container is kept
    exactly when that result is truthy, so a predicate answering [0], the
    empty string, [NaN], [null] or [undefined] drops the value and any other
    non-boolean answer keeps it. *)
Theorem filter_coerces_predicate_result :
  forall (World : Type) (fenv : callbacks World) (c : Optional) (p : N)
         (r : jsval) (s s1 : store World),
    Rich.isPresent c = true ->
    fenv p [value c] s = (Return r, s1) ->
    Rich.filter fenv c (VFunction p) s
    = (Return (if truthy r then c else Rich.EMPTY), s1, [Called p [value c]]).
Proof.
  intros World fenv c p r s s1 Hc Hf. unfold Rich.filter.
  erewrite bind_Return by (apply requireNonNull_non_null; reflexivity).
  rewrite Hc. change (negb true) with false. cbv beta iota.
  erewrite bind_Return by (apply call_function; exact Hf).
  destruct (truthy r); reflexivity.
Qed.

Lemma filter_coerces_predicate_result_witness :
  Rich.filter Client.fenv Client.some_five (VFunction Client.f_zero)
    Client.after_one
  = (Return Rich.EMPTY, Client.after_one,
     [Called Client.f_zero [Client.five]])
  /\ Rich.filter Client.fenv Client.some_five (VFunction Client.f_ten)
       Client.after_one
     = (Return Client.some_five, Client.after_one,
        [Called Client.f_ten [Client.five]]).
Proof.
  split.
  - apply (filter_coerces_predicate_result unit Client.fenv Client.some_five
             Client.f_zero Client.zero Client.after_one Client.after_one);
      reflexivity.
  - apply (filter_coerces_predicate_result unit Client.fenv Client.some_five
             Client.f_ten Client.ten Client.after_one Client.after_one);
      reflexivity.
Defined.

(** X16: the field of an instance is [null] or truthy, and this is kept:
    it holds of [EMPTY], of whatever the constructor of either class builds,
    of what [filter] returns for a receiver that has it, and of what [map]
    returns.  On such an instance [isPresent] is the truthiness of the
    field, and [get] never returns a falsy value. *)
Theorem constructed_invariant :
  forall (World : Type) (fenv : callbacks World) (s s1 : store World)
         (t : list event),
    constructed Rich.EMPTY
    /\ (forall v o, Rich.constructor v s = (Return o, s1, t) -> constructed o)
    /\ (forall v o,
          Minimal.constructor v s = (Return o, s1, t) -> constructed o)
    /\ (forall c p o, constructed c ->
          Rich.filter fenv c p s = (Return o, s1, t) -> constructed o)
    /\ (forall c f o, Rich.map fenv c f s = (Return o, s1, t) -> constructed o)
    /\ (forall c, constructed c -> Rich.isPresent c = truthy (value c))
    /\ (forall c v, constructed c ->
          Rich.get c s = (Return v, s1, t) -> truthy v = true).
Proof.
  intros World fenv s s1 t.
  assert (Hempty : constructed Rich.EMPTY) by (left; reflexivity).
  assert (Hslot : forall i v,
             constructed (mkOptional i (if truthy v then v else VNull))).
  { intros i v. unfold constructed. simpl.
    destruct (truthy v) eqn:Hv; [right; exact Hv | left; reflexivity]. }
  assert (Hpresent : forall c, constructed c ->
             Rich.isPresent c = truthy (value c)).
  { intros c [Hc | Hc]; unfold Rich.isPresent.
    - rewrite Hc. reflexivity.
    - rewrite Hc, (truthy_non_null (value c) Hc). reflexivity. }
  split; [exact Hempty |].
  split; [intros v o H; inversion H; subst; apply Hslot |].
  split; [intros v o H; inversion H; subst; apply Hslot |].
  split; [| split; [| split; [exact Hpresent |]]].
  - intros c p o Hc H. unfold Rich.filter in H.
    apply bind_inv_Return in H.
    destruct H as (x & s2 & t1 & t2 & _ & H & _).
    destruct (negb (Rich.isPresent c)).
    + inversion H; subst. exact Hc.
    + apply bind_inv_Return in H.
      destruct H as (r & s3 & t3 & t4 & _ & H & _).
      destruct (truthy r); inversion H; subst; assumption.
  - intros c f o H. unfold Rich.map in H.
    destruct (eq_null (value c)).
    + inversion H; subst. exact Hempty.
    + apply bind_inv_Return in H.
      destruct H as (r & s3 & t3 & t4 & _ & H & _).
      rewrite Rich_ofNullable_run in H. inversion H; subst. apply Hslot.
  - intros c v Hc H. pose proof (Hpresent c Hc) as Hp.
    unfold Rich.get in H. unfold Rich.isPresent in Hp.
    destruct (eq_null (value c)); [discriminate H |].
    inversion H; subst. simpl in Hp. symmetry. exact Hp.
Qed.

Lemma constructed_invariant_witness :
  constructed (mkOptional 1 VNull)
  /\ constructed Client.some_five
  /\ truthy Client.five = true.
Proof.
  destruct (constructed_invariant unit Client.fenv Client.loaded
              Client.after_one [])
    as (_ & Hnew & _ & Hfilter & _ & _ & _).
  destruct (constructed_invariant unit Client.fenv Client.after_one
              Client.after_one [])
    as (_ & _ & _ & _ & _ & _ & Hget).
  assert (Hfive : constructed Client.some_five).
  { apply (Hnew Client.five). reflexivity. }
  split; [|split].
  - apply (Hnew Client.zero). reflexivity.
  - exact Hfive.
  - apply (Hget Client.some_five Client.five Hfive). reflexivity.
Defined.

(** X17: with a predicate that is a pure function of its argument,
    filtering a second time changes nothing: the second [filter] returns
    the instance the first one returned. *)
Theorem filter_twice :
  forall (World : Type) (fenv : callbacks World) (c : Optional) (p : N)
         (r : jsval) (s : store World),
    (forall s1, fenv p [value c] s1 = (Return r, s1)) ->
    exists o t1 t2,
      Rich.filter fenv c (VFunction p) s = (Return o, s, t1)
      /\ Rich.filter fenv o (VFunction p) s = (Return o, s, t2).
Proof.
  intros World fenv c p r s Hp.
  assert (Hrun : forall o, value o = value c \/ Rich.isPresent o = false ->
             Rich.filter fenv o (VFunction p) s
             = (if Rich.isPresent o
                then (Return (if truthy r then o else Rich.EMPTY), s,
                      [Called p [value c]])
                else (Return o, s, []))).
  { intros o Ho. unfold Rich.filter.
    erewrite bind_Return by (apply requireNonNull_non_null; reflexivity).
    destruct (Rich.isPresent o) eqn:Hpres.
    - destruct Ho as [Ho | Ho]; [| discriminate Ho].
      change (negb true) with false. cbv beta iota.
      rewrite Ho.
      erewrite bind_Return by (apply call_function; apply Hp).
      destruct (truthy r); reflexivity.
    - reflexivity. }
  destruct (Rich.isPresent c) eqn:Hc.
  - destruct (truthy r) eqn:Hr.
    + exists c, [Called p [value c]], [Called p [value c]].
      rewrite (Hrun c (or_introl eq_refl)), Hc. split; reflexivity.
    + exists Rich.EMPTY, [Called p [value c]], [].
      rewrite (Hrun c (or_introl eq_refl)), Hc. split; [reflexivity |].
      rewrite (Hrun Rich.EMPTY (or_intror eq_refl)). reflexivity.
  - exists c, [], [].
    rewrite (Hrun c (or_introl eq_refl)), Hc. split; reflexivity.
Qed.

Lemma filter_twice_witness :
  exists o t1 t2,
    Rich.filter Client.fenv Client.some_five (VFunction Client.f_false)
      Client.after_one = (Return o, Client.after_one, t1)
    /\ Rich.filter Client.fenv o (VFunction Client.f_false) Client.after_one
       = (Return o, Client.after_one, t2).
Proof.
  apply (filter_twice unit Client.fenv Client.some_five Client.f_false
           (VBoolean false) Client.after_one).
  intros s1. reflexivity.
Defined.

(** ** The two classes, and [or] *)

Lemma Minimal_agrees_elsewhere_witness :
  Minimal.of_ Client.five Client.loaded = Rich.of_ Client.five Client.loaded
  /\ Minimal.map Client.fenv Client.some_five (VFunction Client.f_ten)
       Client.after_one
     = Rich.map Client.fenv Client.some_five (VFunction Client.f_ten)
         Client.after_one.
Proof.
  destruct (@Minimal_agrees_elsewhere unit Client.fenv)
    as (_ & _ & Hof & _ & _ & _ & _ & Hmap & _).
  split.
  - apply Hof. reflexivity.
  - apply Hmap.
Defined.

Lemma or_as_written_witness :
  Rich.or Client.fenv Client.some_five VNull Client.after_one
  = (Throw NullPointerException, Client.after_one, [])
  /\ Rich.or Client.fenv Rich.EMPTY (VFunction Client.f_wrap)
       Client.after_one
     = (Return (VOptional Rich.EMPTY), Client.after_one, [])
  /\ Rich.or Client.fenv Client.some_five (VFunction Client.f_null)
       Client.after_one
     = (Throw NullPointerException, Client.after_one,
        [Called Client.f_null []]).
Proof.
  destruct (@or_as_written unit Client.fenv Client.some_five Client.after_one)
    as (Hnull & _ & Hpresent).
  destruct (@or_as_written unit Client.fenv Rich.EMPTY Client.after_one)
    as (_ & Hempty & _).
  split; [|split].
  - apply Hnull. reflexivity.
  - apply Hempty; reflexivity.
  - apply (Hpresent Client.f_null VNull Client.after_one); reflexivity.
Defined.

Lemma Rich_of_truthy_witness :
  exists o,
    Rich.of_ Client.five Client.loaded = (Return o, bump Client.loaded, [])
    /\ Rich.isPresent o = true
    /\ Rich.get o (bump Client.loaded)
       = (Return Client.five, bump Client.loaded, []).
Proof.
  apply (@Rich_of_truthy unit Client.five Client.loaded). reflexivity.
Defined.

(** ** [ofNullable] followed by [orElse] *)

(** X20: in both classes [ofNullable(v).orElse(d)] is [v] when [v] is truthy
    and [d] otherwise: the default replaces not only [null] and [undefined]
    but every falsy value. *)
Theorem ofNullable_orElse :
  forall (World : Type) (v d : jsval) (s : store World),
    (exists o s1,
        Rich.ofNullable v s = (Return o, s1, [])
        /\ Rich.orElse o d = (if truthy v then v else d))
    /\ (exists o s1,
        Minimal.ofNullable v s = (Return o, s1, [])
        /\ Minimal.orElse o d = (if truthy v then v else d)).
Proof.
  intros World v d s.
  assert (Hrich : exists o s1,
             Rich.ofNullable v s = (Return o, s1, [])
             /\ Rich.orElse o d = (if truthy v then v else d)).
  { rewrite Rich_ofNullable_run. eexists. eexists. split; [reflexivity |].
    unfold Rich.orElse. simpl.
    destruct (truthy v) eqn:Hv; [| reflexivity].
    rewrite (truthy_non_null v Hv). reflexivity. }
  split; [exact Hrich |].
  destruct Hrich as (o & s1 & Hrun & Hor).
  exists o, s1. split; [| exact Hor].
  rewrite <- Hrun.
  unfold Minimal.ofNullable, Rich.ofNullable.
  destruct (eq_null v) eqn:Hv; [reflexivity |].
  rewrite (Rich_of_non_null v s Hv). reflexivity.
Qed.
